(** * netatmo-weather-go: the measurement decoding pipeline

    A shallow embedding of package [netatmo] (the client library) and of the
    pure helpers of [cmd/example].  Go values are modelled as follows.

    - [int64] and [int] (64 bits wide) are [Z] with the wrap-around of the
      machine operations written out ([Go.wrap64]).
    - [float64] is [spec_float], the IEEE 754 datum of the standard library;
      [==] is [SFeqb], so that [-0.0 == 0.0] holds and [NaN == x] does not.
    - [*T] for a nullable scalar is [option T].
    - [[]T] is [Go.slice T]: [None] is the [nil] slice and [Some l] a slice
      that has been allocated, so that [measures == nil] can be told apart
      from [len(measures) == 0].
    - A call either returns or panics ([Go.run]); an [(x, err)] result is a
      pair whose second component is a [Go.error] ([None] is the nil error).
    - The network, [ioutil.ReadAll] and [json.Unmarshal] are collaborators
      outside the package: they are variables of the section below. *)

From Stdlib Require Import ZArith List Lia String Ascii Bool Arith.
From Stdlib Require Import Floats.SpecFloat DecimalString DecimalZ DecimalPos.
Import ListNotations.
Local Open Scope Z_scope.

(** ** The fragment of Go the package relies on *)

Module Go.

(** *** Machine integers *)

Definition int64_min : Z := - 2 ^ 63.
Definition int64_max : Z := 2 ^ 63 - 1.

Definition in_int64 (z : Z) : Prop := int64_min <= z <= int64_max.

Definition in_int64b (z : Z) : bool := (int64_min <=? z) && (z <=? int64_max).

(** Two's complement reduction of an exact integer to 64 bits. *)
Definition wrap64 (z : Z) : Z := (z + 2 ^ 63) mod 2 ^ 64 - 2 ^ 63.

Definition int64_add (a b : Z) : Z := wrap64 (a + b).
Definition int64_mul (a b : Z) : Z := wrap64 (a * b).

(** The conversion [int64(i)] of an [int]. *)
Definition int64_of_int (i : Z) : Z := wrap64 i.

(** *** Floating point *)

Definition float64 : Type := spec_float.

(** The literal [0.0]. *)
Definition float64_zero : float64 := S754_zero false.

(** The operator [==] on [float64]. *)
Definition float64_eqb (a b : float64) : bool := SFeqb a b.

(** A datum of the binary64 format that is a number: what a JSON number
    literal can decode to. *)
Definition float64_finite (f : float64) : bool :=
  match f with
  | S754_zero _ => true
  | S754_finite _ _ _ => valid_binary 53 1024 f
  | S754_infinity _ | S754_nan => false
  end.

(** The integer obtained by discarding the fraction (truncation toward
    zero); infinities and NaN have none.  [S754_finite s m e] denotes
    [(-1)^s * m * 2^e]. *)
Definition float64_trunc (f : float64) : option Z :=
  match f with
  | S754_zero _ => Some 0
  | S754_finite s m e =>
      let a := Z.shiftl (Zpos m) e in
      Some (if s then - a else a)
  | S754_infinity _ | S754_nan => None
  end.

(** The conversion [int(f)] of a non-constant [float64].  The fraction is
    discarded; when the result type cannot represent the value the
    conversion still succeeds and its result is implementation-dependent:
    [unrepresentable] stands for what the implementation yields then. *)
Definition int_of_float64 (unrepresentable : float64 -> Z) (f : float64) : Z :=
  match float64_trunc f with
  | Some z => if in_int64b z then z else unrepresentable f
  | None => unrepresentable f
  end.

(** On amd64 the conversion is one CVTTSD2SQ instruction, which yields the
    "integer indefinite" value on every unrepresentable operand. *)
Definition amd64_unrepresentable (_ : float64) : Z := int64_min.

(** *** Errors, panics and results *)

(** The interface type [error]: [None] is [nil], [Some msg] a failure. *)
Definition error : Type := option string.

Inductive panic : Type :=
| IndexOutOfRange (index : Z) (length : nat).

Inductive run (A : Type) : Type :=
| Returns (a : A)
| Panics (p : panic).

Arguments Returns {A} a.
Arguments Panics {A} p.

Definition bind {A B : Type} (c : run A) (k : A -> run B) : run B :=
  match c with
  | Returns a => k a
  | Panics p => Panics p
  end.

(** What a library function with the result list [(T, error)] hands back:
    a value with the nil error, or a failure. *)
Inductive fallible (A : Type) : Type :=
| Ok (a : A)
| Fail (msg : string).

Arguments Ok {A} a.
Arguments Fail {A} msg.

(** *** Slices *)

Definition slice (A : Type) : Type := option (list A).

Definition elems {A : Type} (s : slice A) : list A :=
  match s with
  | None => []
  | Some l => l
  end.

Definition len {A : Type} (s : slice A) : nat := List.length (elems s).

(** [append(s, x)]: the result is never the nil slice. *)
Definition append {A : Type} (s : slice A) (x : A) : slice A :=
  Some (elems s ++ [x])%list.

Definition is_nil {A : Type} (s : slice A) : bool :=
  match s with
  | None => true
  | Some _ => false
  end.

(** The index expression [s[i]] with its run-time bounds check; [l] is the
    sequence of elements of [s]. *)
Definition index {A : Type} (l : list A) (i : Z) : run A :=
  if i <? 0 then Panics (IndexOutOfRange i (List.length l))
  else match nth_error l (Z.to_nat i) with
       | Some a => Returns a
       | None => Panics (IndexOutOfRange i (List.length l))
       end.

(** *** Strings *)

(** [strings.Join]. *)
Definition strings_Join (l : list string) (sep : string) : string :=
  String.concat sep l.

(** [strconv.FormatInt (n, 10)], which is also what the verbs [%d] and
    [%v] print for an integer. *)
Definition FormatInt10 (n : Z) : string :=
  NilZero.string_of_int (Z.to_int n).

End Go.

Import Go.

Notation "x <- c ;; k" := (Go.bind c (fun x => k))
  (at level 61, c at next level, right associativity).

(** ** Package [netatmo] *)

(** [TargetMeasurements]: the measurement attributes that are requested, in
    the order of the columns of a response row. *)
Definition TargetMeasurements : list string :=
  ["Temperature"; "CO2"; "Humidity"; "Pressure"; "Noise"; "WindStrength";
   "WindAngle"; "GustStrength"; "GustAngle"]%string.

Record Measure : Type := {
  DeviceID : string;
  ModuleID : string;
  Timestamp : Z;
  Temperature : option float64;
  CO2 : option Z;
  Humidity : option Z;
  Pressure : option float64;
  Noise : option Z;
  WindStrength : option Z;
  WindAngle : option Z;
  GustStrength : option Z;
  GustAngle : option Z
}.

(** A row of [measureBody.Value], of type [[]*float64].  Ranging over a slice
    and indexing it do not tell [nil] from an empty slice, so the rows and
    the blocks are plain lists. *)
Definition row : Type := list (option float64).

Record measureBody : Type := {
  BeginTime : Z;
  StepTime : Z;
  Value : list row
}.

Record getMeasureResponse : Type := {
  Body : list measureBody;
  Status : string;
  ExecTime : float64;
  ServerTime : Z
}.

Record Place : Type := {
  Altitude : Z;
  City : string;
  Country : string;
  Timezone : string;
  Location : list float64
}.

Record Administrative : Type := {
  Language : string;
  DisplayLocale : string;
  AdminCountry : string;
  Unit : Z;
  WindUnit : Z;
  PressureUnit : Z;
  FeelLikeAlgorithm : Z
}.

(** *** Sentinel resolution *)

Definition handleFloat (v : option float64) : option float64 :=
  match v with
  | None => None
  | Some x => if float64_eqb x float64_zero then None else Some x
  end.

(** *** Place and Administrative *)

Definition Latitude (n : Place) : float64 :=
  if negb (Nat.eqb (List.length (Location n)) 2) then float64_zero
  else nth 0 (Location n) float64_zero.

Definition Longitude (n : Place) : float64 :=
  if negb (Nat.eqb (List.length (Location n)) 2) then float64_zero
  else nth 1 (Location n) float64_zero.

Definition DescribeUnit (a : Administrative) : string :=
  match Unit a with
  | 0 => "metric system"
  | 1 => "imperial system"
  | u => "unknown unit: " ++ FormatInt10 u
  end%string.

Definition DescribeWindUnit (a : Administrative) : string :=
  match WindUnit a with
  | 0 => "kph"
  | 1 => "mph"
  | 2 => "ms"
  | 3 => "beaufort"
  | 4 => "knot"
  | u => "unknown wind unit: " ++ FormatInt10 u
  end%string.

Definition DescribePressureUnit (a : Administrative) : string :=
  match PressureUnit a with
  | 0 => "mbar"
  | 1 => "inHg"
  | 2 => "mmHg"
  | u => "unknown pressure unit: " ++ FormatInt10 u
  end%string.

Definition DescribeFeelLikeAlgorithm (a : Administrative) : string :=
  match FeelLikeAlgorithm a with
  | 0 => "humidex"
  | 1 => "heat-index"
  | u => "unknown feel like algorithm: " ++ FormatInt10 u
  end%string.

(** ** Helpers of [cmd/example] that do no input or output *)

Fixpoint sliceContains (slice : list string) (value : string) : bool :=
  match slice with
  | [] => false
  | item :: rest => if String.eqb item value then true else sliceContains rest value
  end.

Definition intOrNull (v : option Z) : string :=
  match v with
  | None => "null"
  | Some x => FormatInt10 x
  end%string.

(** ** The client *)

Section Client.

(** What [int(f)] yields on this implementation when [f] has no
    representation in [int]. *)
Variable int_unrepresentable : float64 -> Z.

(** [json.Unmarshal (data, &response)] for a [getMeasureResponse]: the
    decoded value, or the error of the decoder. *)
Variable json_Unmarshal : list Byte.byte -> fallible getMeasureResponse.

(** [*http.Response], the method [Get] of the authorised HTTP client and
    [ioutil.ReadAll] applied to the body of a response. *)
Variable Response : Type.
Variable client_Get : string -> fallible Response.
Variable ioutil_ReadAll : Response -> fallible (list Byte.byte).

Definition handleInt (v : option float64) : option Z :=
  match v with
  | None => None
  | Some x =>
      if float64_eqb x float64_zero then None
      else Some (int_of_float64 int_unrepresentable x)
  end.

(** The composite literal of the inner loop body: the nine index
    expressions are evaluated from [m[0]] to [m[8]]. *)
Definition buildMeasure (deviceID moduleID : string) (v : measureBody)
    (i : nat) (m : row) : run Measure :=
  m0 <- index m 0 ;;
  m1 <- index m 1 ;;
  m2 <- index m 2 ;;
  m3 <- index m 3 ;;
  m4 <- index m 4 ;;
  m5 <- index m 5 ;;
  m6 <- index m 6 ;;
  m7 <- index m 7 ;;
  m8 <- index m 8 ;;
  Returns {|
    DeviceID := deviceID;
    ModuleID := moduleID;
    Timestamp :=
      int64_add (BeginTime v) (int64_mul (StepTime v) (int64_of_int (Z.of_nat i)));
    Temperature := handleFloat m0;
    CO2 := handleInt m1;
    Humidity := handleInt m2;
    Pressure := handleFloat m3;
    Noise := handleInt m4;
    WindStrength := handleInt m5;
    WindAngle := handleInt m6;
    GustStrength := handleInt m7;
    GustAngle := handleInt m8
  |}.

(** [for i, m := range v.Value { ... }], from row [i] on, threading the
    slice [measures]. *)
Fixpoint rangeValue (deviceID moduleID : string) (v : measureBody)
    (i : nat) (rows : list row) (measures : slice Measure)
    : run (slice Measure) :=
  match rows with
  | [] => Returns measures
  | m :: rest =>
      measure <- buildMeasure deviceID moduleID v i m ;;
      rangeValue deviceID moduleID v (S i) rest (append measures measure)
  end.

(** [for _, v := range response.Body { ... }]. *)
Fixpoint rangeBody (deviceID moduleID : string) (body : list measureBody)
    (measures : slice Measure) : run (slice Measure) :=
  match body with
  | [] => Returns measures
  | v :: rest =>
      measures' <- rangeValue deviceID moduleID v 0 (Value v) measures ;;
      rangeBody deviceID moduleID rest measures'
  end.

Definition buildGetMeasureResponse (deviceID moduleID : string)
    (data : list Byte.byte) : run (slice Measure * error) :=
  match json_Unmarshal data with
  | Fail err => Returns (None, Some err)
  | Ok response =>
      measures <- rangeBody deviceID moduleID (Body response) None ;;
      if Nat.eqb (len measures) 0 then Returns (None, None)
      else Returns (measures, None)
  end.

Definition measureByTimeRangeURL (deviceID moduleID : string) (begin_ end_ : Z)
    : string :=
  ("https://api.netatmo.com/api/getmeasure" ++
   "?device_id=" ++ deviceID ++
   "&module_id=" ++ moduleID ++
   "&scale=max" ++
   "&type=" ++ strings_Join TargetMeasurements "," ++
   "&real_time=true" ++
   "&date_begin=" ++ FormatInt10 begin_ ++
   "&date_end=" ++ FormatInt10 end_)%string.

Definition GetMeasureByTimeRange (deviceID moduleID : string) (begin_ end_ : Z)
    : run (slice Measure * error) :=
  match client_Get (measureByTimeRangeURL deviceID moduleID begin_ end_) with
  | Fail err => Returns (None, Some err)
  | Ok resp =>
      match ioutil_ReadAll resp with
      | Fail err => Returns (None, Some err)
      | Ok data => buildGetMeasureResponse deviceID moduleID data
      end
  end.

Definition measureByNewestURL (deviceID moduleID : string) : string :=
  ("https://api.netatmo.com/api/getmeasure" ++
   "?device_id=" ++ deviceID ++
   "&module_id=" ++ moduleID ++
   "&scale=max" ++
   "&type=" ++ strings_Join TargetMeasurements "," ++
   "&date_end=last")%string.

(** In [measures[len(measures)-1]] the subtraction is exact: the length of
    a slice lies between 0 and the largest [int]. *)
Definition GetMeasureByNewest (deviceID moduleID : string)
    : run (option Measure * error) :=
  match client_Get (measureByNewestURL deviceID moduleID) with
  | Fail err => Returns (None, Some err)
  | Ok resp =>
      match ioutil_ReadAll resp with
      | Fail err => Returns (None, Some err)
      | Ok data =>
          r <- buildGetMeasureResponse deviceID moduleID data ;;
          match r with
          | (_, Some err) => Returns (None, Some err)
          | (measures, None) =>
              if is_nil measures then Returns (None, None)
              else
                last <- index (elems measures) (Z.of_nat (len measures) - 1) ;;
                Returns (Some last, None)
          end
      end
  end.

(** *** Series expansion as the design describes it

    One record per row, every block in the order given and every row of a
    block in the order given; the metric of column [j] is the sentinel
    resolution of cell [j].  These definitions follow the description, not
    the loops, and are compared with the loops below. *)

Definition cell (m : row) (j : nat) : option float64 := nth j m None.

Definition recordOfRow (deviceID moduleID : string) (v : measureBody)
    (i : nat) (m : row) : Measure := {|
  DeviceID := deviceID;
  ModuleID := moduleID;
  Timestamp :=
    int64_add (BeginTime v) (int64_mul (StepTime v) (int64_of_int (Z.of_nat i)));
  Temperature := handleFloat (cell m 0);
  CO2 := handleInt (cell m 1);
  Humidity := handleInt (cell m 2);
  Pressure := handleFloat (cell m 3);
  Noise := handleInt (cell m 4);
  WindStrength := handleInt (cell m 5);
  WindAngle := handleInt (cell m 6);
  GustStrength := handleInt (cell m 7);
  GustAngle := handleInt (cell m 8)
|}.

(** The records of rows [rows], which are rows [i], [i+1], ... of [v]. *)
Definition recordsFrom (deviceID moduleID : string) (v : measureBody)
    (i : nat) (rows : list row) : list Measure :=
  map (fun im => recordOfRow deviceID moduleID v (fst im) (snd im))
      (combine (seq i (List.length rows)) rows).

Definition expandBlock (deviceID moduleID : string) (v : measureBody)
    : list Measure :=
  recordsFrom deviceID moduleID v 0 (Value v).

Definition expandSeries (deviceID moduleID : string) (body : list measureBody)
    : list Measure :=
  flat_map (expandBlock deviceID moduleID) body.

(** A slice grown by the elements of [l], one [append] each. *)
Definition extend (s : slice Measure) (l : list Measure) : slice Measure :=
  match l with
  | [] => s
  | _ :: _ => Some (elems s ++ l)%list
  end.

(** The rows are wide enough for the nine index expressions. *)
Definition wideRows (body : list measureBody) : Prop :=
  Forall (fun v => Forall (fun m : row => (9 <= List.length m)%nat) (Value v)) body.

(** The first row of [rows] with fewer than nine cells, if any. *)
Definition firstShortRow (rows : list row) : option row :=
  find (fun m => (List.length m <? 9)%nat) rows.

Definition firstShortRowOf (body : list measureBody) : option row :=
  firstShortRow (flat_map Value body).

(** A block whose rows are cut down to their first nine cells. *)
Definition firstNine (v : measureBody) : measureBody := {|
  BeginTime := BeginTime v;
  StepTime := StepTime v;
  Value := map (firstn 9) (Value v)
|}.

Definition firstNineOf (response : getMeasureResponse) : getMeasureResponse := {|
  Body := map firstNine (Body response);
  Status := Status response;
  ExecTime := ExecTime response;
  ServerTime := ServerTime response
|}.

(** The outcome the design calls a decoding failure: no records and an
    error value. *)
Definition decodingFailure (r : run (slice Measure * error)) : Prop :=
  exists err, r = Returns (None, Some err).

(** *** Sample payloads *)

(** The binary64 number [m * 2^e]. *)
Definition f64 (m e : Z) : float64 := binary_normalize 53 1024 m e false.

Definition num (m e : Z) : option float64 := Some (f64 m e).

(** Two rows, the second with literal zeros in the columns of Temperature
    and Humidity. *)
Definition sample_block : measureBody := {|
  BeginTime := 1000;
  StepTime := 60;
  Value :=
    [ [num 43 (-1); None; num 55 0; num 1013 0; None; None; None; None; None];
      [num 0 0; num 400 0; num 0 0; num 2025 (-1); num 30 0; None; None; None; None] ]
|}.

Definition response_of (body : list measureBody) : getMeasureResponse := {|
  Body := body;
  Status := "ok";
  ExecTime := f64 1 (-5);
  ServerTime := 1100
|}.

Definition sample_response : getMeasureResponse := response_of [sample_block].

(** A row of ten cells. *)
Definition wide_response : getMeasureResponse :=
  response_of
    [ {| BeginTime := 1000; StepTime := 60;
         Value := [ [num 43 (-1); num 400 0; num 55 0; num 1013 0; num 30 0;
                     num 7 0; num 90 0; num 12 0; num 95 0; num 5 0] ] |} ].

(** A row of seven cells. *)
Definition short_response : getMeasureResponse :=
  response_of
    [ {| BeginTime := 1000; StepTime := 60;
         Value := [ [num 43 (-1); num 400 0; num 55 0; num 1013 0; num 30 0;
                     num 7 0; num 90 0] ] |} ].

(** Two blocks without rows. *)
Definition empty_response : getMeasureResponse :=
  response_of
    [ {| BeginTime := 1000; StepTime := 60; Value := [] |};
      {| BeginTime := 2000; StepTime := 60; Value := [] |} ].

(** Two blocks that are not in chronological order. *)
Definition late_block : measureBody := {|
  BeginTime := 5000;
  StepTime := 60;
  Value := [ [num 20 0; None; None; None; None; None; None; None; None] ]
|}.

Definition early_block : measureBody := {|
  BeginTime := 1000;
  StepTime := 60;
  Value := [ [num 10 0; None; None; None; None; None; None; None; None] ]
|}.

Definition unordered_response : getMeasureResponse :=
  response_of [late_block; early_block].

(** A block that begins at the largest [int64], with a step of one second
    and two rows. *)
Definition overflow_block : measureBody := {|
  BeginTime := 9223372036854775807;
  StepTime := 1;
  Value := [ [num 20 0; None; None; None; None; None; None; None; None];
             [num 21 0; None; None; None; None; None; None; None; None] ]
|}.

Definition overflow_response : getMeasureResponse :=
  response_of [overflow_block].

(** A place whose location holds two numbers, 35.625 and 139.75. *)
Definition sample_place : Place := {|
  Altitude := 25;
  City := "Chiyoda";
  Country := "JP";
  Timezone := "Asia/Tokyo";
  Location := [f64 285 (-3); f64 559 (-2)]
|}.

(** Administrative settings with the code [u] in every field of a unit. *)
Definition sample_settings (u : Z) : Administrative := {|
  Language := "ja-JP";
  DisplayLocale := "ja-JP";
  AdminCountry := "JP";
  Unit := u;
  WindUnit := u;
  PressureUnit := u;
  FeelLikeAlgorithm := u
|}.

(** A decoder that yields [response] for every payload. *)
Definition decodes_to (response : getMeasureResponse) (_ : list Byte.byte)
    : fallible getMeasureResponse := Ok response.


(** A decoder that rejects the empty payload, as [json.Unmarshal] does,
    and yields [response] for the others. *)
Definition decodes_nonempty (response : getMeasureResponse)
    (data : list Byte.byte) : fallible getMeasureResponse :=
  match data with
  | [] => Fail "unexpected end of JSON input"
  | _ :: _ => Ok response
  end.

(** A decoder that yields [response] for the empty payload and
    [response'] for the others. *)
Definition decodes_two (response response' : getMeasureResponse)
    (data : list Byte.byte) : fallible getMeasureResponse :=
  match data with
  | [] => Ok response
  | _ :: _ => Ok response'
  end.

(** An HTTP client whose every request is answered by the payload [data]. *)
Definition answers (data : list Byte.byte) (_ : string)
    : fallible (list Byte.byte) := Ok data.

Definition read_all (body : list Byte.byte) : fallible (list Byte.byte) :=
  Ok body.

Definition sample_device : string := "70:ee:50:00:00:01".
Definition sample_module : string := "02:00:00:00:00:02".

(** A payload that is not empty. *)
Definition sample_payload : list Byte.byte := [Byte.x7b; Byte.x7d].

(** The number 2^63, the least positive number that [int] cannot hold. *)
Definition two_pow_63 : float64 := f64 1 63.

(** *** Arithmetic of the machine integers *)

Lemma wrap64_range (z : Z) : in_int64 (wrap64 z).
Proof.
  unfold in_int64, wrap64, int64_min, int64_max.
  pose proof (Z.mod_pos_bound (z + 2 ^ 63) (2 ^ 64) ltac:(lia)). lia.
Qed.

Lemma wrap64_id (z : Z) : in_int64 z -> wrap64 z = z.
Proof.
  unfold in_int64, wrap64, int64_min, int64_max. intros H.
  rewrite Z.mod_small; lia.
Qed.

Lemma wrap64_congr (a b : Z) :
  a mod 2 ^ 64 = b mod 2 ^ 64 -> wrap64 a = wrap64 b.
Proof.
  intros H. unfold wrap64. f_equal.
  rewrite (Z.add_mod a), (Z.add_mod b), H by lia. reflexivity.
Qed.

Lemma wrap64_mod (z : Z) : wrap64 z mod 2 ^ 64 = z mod 2 ^ 64.
Proof.
  unfold wrap64.
  rewrite Zminus_mod_idemp_l. f_equal. lia.
Qed.

Lemma timestamp_wrap (b s i : Z) :
  int64_add b (int64_mul s (int64_of_int i)) = wrap64 (b + s * i).
Proof.
  unfold int64_add, int64_mul, int64_of_int.
  apply wrap64_congr.
  rewrite Z.add_mod, wrap64_mod by lia.
  rewrite Z.mul_mod, wrap64_mod by lia.
  rewrite <- Z.mul_mod, <- Z.add_mod by lia. reflexivity.
Qed.

(** *** The loops *)

Lemma buildMeasure_wide (d mo : string) (v : measureBody) (i : nat) (m : row) :
  (9 <= List.length m)%nat ->
  buildMeasure d mo v i m = Returns (recordOfRow d mo v i m).
Proof.
  intros H.
  do 9 (destruct m as [|? m]; [simpl in H; lia|]).
  reflexivity.
Qed.

Lemma buildMeasure_short (d mo : string) (v : measureBody) (i : nat) (m : row) :
  (List.length m < 9)%nat ->
  buildMeasure d mo v i m =
  Panics (IndexOutOfRange (Z.of_nat (List.length m)) (List.length m)).
Proof.
  intros H.
  do 9 (destruct m as [|? m]; [reflexivity|]).
  simpl in H. lia.
Qed.

Lemma extend_append (s : slice Measure) (r : Measure) (l : list Measure) :
  extend (append s r) l = extend s (r :: l).
Proof.
  unfold extend, append. destruct l; simpl.
  - reflexivity.
  - rewrite <- app_assoc. reflexivity.
Qed.

Lemma extend_extend (s : slice Measure) (l1 l2 : list Measure) :
  extend (extend s l1) l2 = extend s (l1 ++ l2).
Proof.
  destruct l1 as [|a l1]; [reflexivity|].
  destruct l2 as [|b l2]; simpl.
  - rewrite app_nil_r. reflexivity.
  - rewrite <- app_assoc. reflexivity.
Qed.

Lemma elems_extend (s : slice Measure) (l : list Measure) :
  elems (extend s l) = (elems s ++ l)%list.
Proof.
  destruct l; simpl; [rewrite app_nil_r|]; reflexivity.
Qed.

Lemma recordsFrom_cons (d mo : string) (v : measureBody) (i : nat) (m : row)
    (rest : list row) :
  recordsFrom d mo v i (m :: rest) =
  recordOfRow d mo v i m :: recordsFrom d mo v (S i) rest.
Proof. reflexivity. Qed.

Lemma recordsFrom_length (d mo : string) (v : measureBody) (i : nat)
    (rows : list row) :
  List.length (recordsFrom d mo v i rows) = List.length rows.
Proof.
  unfold recordsFrom.
  rewrite length_map, length_combine, length_seq. apply Nat.min_id.
Qed.

Lemma recordsFrom_nth (d mo : string) (v : measureBody) (rows : list row) :
  forall (i k : nat) (m : row),
    nth_error rows k = Some m ->
    nth_error (recordsFrom d mo v i rows) k =
    Some (recordOfRow d mo v (i + k) m).
Proof.
  induction rows as [|m0 rest IH]; intros i k m Hk.
  - destruct k; discriminate.
  - rewrite recordsFrom_cons. destruct k as [|k]; simpl in *.
    + injection Hk as ->. rewrite Nat.add_0_r. reflexivity.
    + rewrite (IH (S i) k m Hk). do 2 f_equal. lia.
Qed.

Lemma rangeValue_wide (d mo : string) (v : measureBody) (rows : list row) :
  Forall (fun m : row => (9 <= List.length m)%nat) rows ->
  forall (i : nat) (measures : slice Measure),
    rangeValue d mo v i rows measures =
    Returns (extend measures (recordsFrom d mo v i rows)).
Proof.
  induction 1 as [|m rest Hm _ IH]; intros i measures.
  - reflexivity.
  - simpl rangeValue. rewrite (buildMeasure_wide _ _ _ _ _ Hm). simpl bind.
    rewrite IH, extend_append, recordsFrom_cons. reflexivity.
Qed.

Lemma rangeBody_wide (d mo : string) (body : list measureBody) :
  wideRows body ->
  forall measures : slice Measure,
    rangeBody d mo body measures =
    Returns (extend measures (expandSeries d mo body)).
Proof.
  induction 1 as [|v rest Hv _ IH]; intros measures.
  - reflexivity.
  - simpl rangeBody. rewrite (rangeValue_wide _ _ _ _ Hv). simpl bind.
    rewrite IH, extend_extend. reflexivity.
Qed.

Lemma firstShortRow_none (rows : list row) :
  firstShortRow rows = None ->
  Forall (fun m : row => (9 <= List.length m)%nat) rows.
Proof.
  unfold firstShortRow. induction rows as [|m rest IH]; simpl; intros H.
  - constructor.
  - destruct (Nat.ltb_spec (List.length m) 9); [discriminate|].
    constructor; auto.
Qed.

Lemma firstShortRow_some (rows : list row) (m : row) :
  firstShortRow rows = Some m -> (List.length m < 9)%nat /\ In m rows.
Proof.
  unfold firstShortRow. intros H. apply find_some in H as [Hin Hlt].
  apply Nat.ltb_lt in Hlt. auto.
Qed.

Lemma firstShortRow_app (l1 l2 : list row) :
  firstShortRow (l1 ++ l2) =
  match firstShortRow l1 with
  | Some m => Some m
  | None => firstShortRow l2
  end.
Proof.
  unfold firstShortRow. induction l1 as [|m l1 IH]; simpl; [reflexivity|].
  destruct (List.length m <? 9)%nat; auto.
Qed.

Lemma rangeValue_short (d mo : string) (v : measureBody) (rows : list row)
    (m : row) :
  firstShortRow rows = Some m ->
  forall (i : nat) (measures : slice Measure),
    rangeValue d mo v i rows measures =
    Panics (IndexOutOfRange (Z.of_nat (List.length m)) (List.length m)).
Proof.
  unfold firstShortRow.
  induction rows as [|m0 rest IH]; simpl; intros H i measures; [discriminate|].
  destruct (Nat.ltb_spec (List.length m0) 9) as [Hlt|Hge].
  - injection H as <-. rewrite (buildMeasure_short _ _ _ _ _ Hlt). reflexivity.
  - rewrite (buildMeasure_wide _ _ _ _ _ Hge). simpl bind. apply IH, H.
Qed.

Lemma rangeBody_short (d mo : string) (body : list measureBody) (m : row) :
  firstShortRowOf body = Some m ->
  forall measures : slice Measure,
    rangeBody d mo body measures =
    Panics (IndexOutOfRange (Z.of_nat (List.length m)) (List.length m)).
Proof.
  unfold firstShortRowOf.
  induction body as [|v rest IH]; simpl; intros H measures; [discriminate|].
  rewrite firstShortRow_app in H.
  destruct (firstShortRow (Value v)) as [m'|] eqn:Hv.
  - injection H as ->. rewrite (rangeValue_short _ _ _ _ _ Hv). reflexivity.
  - rewrite (rangeValue_wide _ _ _ _ (firstShortRow_none _ Hv)). simpl bind.
    apply IH, H.
Qed.

Lemma firstShortRowOf_none (body : list measureBody) :
  firstShortRowOf body = None -> wideRows body.
Proof.
  unfold firstShortRowOf, wideRows.
  induction body as [|v rest IH]; simpl; intros H; [constructor|].
  rewrite firstShortRow_app in H.
  destruct (firstShortRow (Value v)) eqn:Hv; [discriminate|].
  constructor; [apply firstShortRow_none, Hv | apply IH, H].
Qed.

Lemma wideRows_firstShortRowOf (body : list measureBody) :
  wideRows body -> firstShortRowOf body = None.
Proof.
  intros Hw. destruct (firstShortRowOf body) as [m|] eqn:H; [|reflexivity].
  apply firstShortRow_some in H as [Hlt Hin].
  apply in_flat_map in Hin as (v & Hv & Hm).
  unfold wideRows in Hw. rewrite Forall_forall in Hw.
  specialize (Hw v Hv). rewrite Forall_forall in Hw.
  specialize (Hw m Hm). lia.
Qed.

(** The final test on [len(measures)] leaves a slice grown from [nil]
    as it is. *)
Lemma no_data_test (l : list Measure) :
  (if Nat.eqb (len (extend None l)) 0
   then Returns (None, None)
   else Returns (extend None l, @None string)) =
  Returns (extend None l, None).
Proof. destruct l; reflexivity. Qed.

Lemma build_wide (d mo : string) (data : list Byte.byte)
    (response : getMeasureResponse) :
  json_Unmarshal data = Ok response ->
  wideRows (Body response) ->
  buildGetMeasureResponse d mo data =
  Returns (extend None (expandSeries d mo (Body response)), None).
Proof.
  intros Hj Hw. unfold buildGetMeasureResponse. rewrite Hj.
  rewrite (rangeBody_wide _ _ _ Hw). simpl bind. apply no_data_test.
Qed.

Lemma build_short (d mo : string) (data : list Byte.byte)
    (response : getMeasureResponse) (m : row) :
  json_Unmarshal data = Ok response ->
  firstShortRowOf (Body response) = Some m ->
  buildGetMeasureResponse d mo data =
  Panics (IndexOutOfRange (Z.of_nat (List.length m)) (List.length m)).
Proof.
  intros Hj Hs. unfold buildGetMeasureResponse. rewrite Hj.
  rewrite (rangeBody_short _ _ _ _ Hs). reflexivity.
Qed.

(** Every way [buildGetMeasureResponse] can end. *)
Lemma build_cases (d mo : string) (data : list Byte.byte) :
  (exists err, json_Unmarshal data = Fail err /\
     buildGetMeasureResponse d mo data = Returns (None, Some err)) \/
  (exists response m, json_Unmarshal data = Ok response /\
     firstShortRowOf (Body response) = Some m /\
     buildGetMeasureResponse d mo data =
     Panics (IndexOutOfRange (Z.of_nat (List.length m)) (List.length m))) \/
  (exists response, json_Unmarshal data = Ok response /\
     wideRows (Body response) /\
     buildGetMeasureResponse d mo data =
     Returns (extend None (expandSeries d mo (Body response)), None)).
Proof.
  destruct (json_Unmarshal data) as [response|err] eqn:Hj.
  - destruct (firstShortRowOf (Body response)) as [m|] eqn:Hs.
    + right; left. exists response, m.
      repeat split; eauto using build_short.
    + right; right. exists response.
      repeat split; eauto using build_wide, firstShortRowOf_none.
  - left. exists err. split; [reflexivity|].
    unfold buildGetMeasureResponse. rewrite Hj. reflexivity.
Qed.

Lemma expandSeries_single (d mo : string) (v : measureBody) :
  expandSeries d mo [v] = recordsFrom d mo v 0 (Value v).
Proof. unfold expandSeries, expandBlock. simpl. apply app_nil_r. Qed.

Lemma nine_wide (rows : list row) :
  Forall (fun m : row => List.length m = 9%nat) rows ->
  Forall (fun m : row => (9 <= List.length m)%nat) rows.
Proof. apply Forall_impl. intros m ->. constructor. Qed.

Lemma exists_short_row (body : list measureBody) :
  Exists (fun v => Exists (fun m : row => (List.length m < 9)%nat) (Value v)) body ->
  exists m, firstShortRowOf body = Some m /\ (List.length m < 9)%nat.
Proof.
  intros Hex. destruct (firstShortRowOf body) as [m|] eqn:H.
  - exists m. split; [reflexivity|]. apply firstShortRow_some in H. tauto.
  - exfalso. apply firstShortRowOf_none in H.
    apply Exists_exists in Hex as (v & Hv & Hm).
    apply Exists_exists in Hm as (m & Hm & Hlt).
    unfold wideRows in H. rewrite Forall_forall in H.
    specialize (H v Hv). rewrite Forall_forall in H. specialize (H m Hm). lia.
Qed.

Lemma expandSeries_no_rows (d mo : string) (body : list measureBody) :
  Forall (fun v => Value v = []) body -> expandSeries d mo body = [].
Proof.
  induction 1 as [|v rest Hv _ IH]; [reflexivity|].
  unfold expandSeries in *. simpl. rewrite IH.
  unfold expandBlock. rewrite Hv. reflexivity.
Qed.

Lemma no_rows_wide (body : list measureBody) :
  Forall (fun v => Value v = []) body -> wideRows body.
Proof. apply Forall_impl. intros v ->. constructor. Qed.

Lemma build_nil_or_nonempty (d mo : string) (data : list Byte.byte)
    (measures : slice Measure) (err : error) :
  buildGetMeasureResponse d mo data = Returns (measures, err) ->
  measures = None \/ ((1 <= len measures)%nat /\ err = None).
Proof.
  intros H.
  destruct (build_cases d mo data)
    as [(e & _ & Hb) | [(r & m & _ & _ & Hb) | (r & _ & _ & Hb)]];
    rewrite Hb in H; try discriminate; injection H as <- <-.
  - left. reflexivity.
  - destruct (expandSeries d mo (Body r)); [left; reflexivity|].
    right. split; [|reflexivity]. unfold len. simpl. lia.
Qed.

Lemma index_in_bounds {A : Type} (l : list A) (k : nat) (a : A) :
  nth_error l k = Some a -> index l (Z.of_nat k) = Returns a.
Proof.
  intros H. unfold index.
  destruct (Z.ltb_spec (Z.of_nat k) 0); [lia|].
  rewrite Nat2Z.id, H. reflexivity.
Qed.

Lemma last_position {A : Type} (l : list A) :
  (0 < List.length l)%nat ->
  exists a : A,
    nth_error l (List.length l - 1) = Some a /\
    index l (Z.of_nat (List.length l) - 1) = Returns a.
Proof.
  intros Hl.
  destruct (nth_error l (List.length l - 1)) as [a|] eqn:Hn.
  - exists a. split; [reflexivity|].
    replace (Z.of_nat (List.length l) - 1) with (Z.of_nat (List.length l - 1))
      by lia.
    apply index_in_bounds, Hn.
  - apply nth_error_None in Hn. lia.
Qed.

Lemma recordOfRow_firstNine (d mo : string) (v : measureBody) (i : nat)
    (m : row) :
  recordOfRow d mo (firstNine v) i (firstn 9 m) = recordOfRow d mo v i m.
Proof.
  unfold recordOfRow, cell. rewrite !nth_firstn. reflexivity.
Qed.

Lemma recordsFrom_firstNine (d mo : string) (v : measureBody)
    (rows : list row) :
  forall i : nat,
    recordsFrom d mo (firstNine v) i (map (firstn 9) rows) =
    recordsFrom d mo v i rows.
Proof.
  induction rows as [|m rest IH]; intros i; [reflexivity|].
  change (map (firstn 9) (m :: rest))
    with (firstn 9 m :: map (firstn 9) rest).
  rewrite (recordsFrom_cons d mo (firstNine v)), (recordsFrom_cons d mo v).
  rewrite IH, recordOfRow_firstNine. reflexivity.
Qed.

Lemma expandSeries_firstNine (d mo : string) (body : list measureBody) :
  expandSeries d mo (map firstNine body) = expandSeries d mo body.
Proof.
  unfold expandSeries. induction body as [|v rest IH]; [reflexivity|].
  simpl. rewrite IH. f_equal.
  unfold expandBlock. apply recordsFrom_firstNine.
Qed.

Lemma wideRows_firstNine (body : list measureBody) :
  wideRows body -> wideRows (map firstNine body).
Proof.
  unfold wideRows. intros H. apply Forall_map.
  revert H. apply Forall_impl. intros v Hv.
  change (Value (firstNine v)) with (map (firstn 9) (Value v)).
  apply Forall_map. revert Hv. apply Forall_impl. intros m Hm.
  rewrite length_firstn. lia.
Qed.

Lemma firstShortRow_split (rows : list row) (m : row) :
  firstShortRow rows = Some m ->
  exists pre post : list row,
    rows = (pre ++ m :: post)%list /\
    Forall (fun m' : row => (9 <= List.length m')%nat) pre /\
    (List.length m < 9)%nat.
Proof.
  unfold firstShortRow.
  induction rows as [|m0 rest IH]; simpl; intros H; [discriminate|].
  destruct (Nat.ltb_spec (List.length m0) 9) as [Hlt|Hge].
  - injection H as <-. exists [], rest. repeat split; [constructor | exact Hlt].
  - destruct (IH H) as (pre & post & -> & Hpre & Hm).
    exists (m0 :: pre), post. repeat split; [constructor; assumption | exact Hm].
Qed.

(** ** The claims *)

(** C1, as amended.  For a response with a single block whose N rows have
    the nine cells each, the decoder returns exactly N records and no error,
    and for every [i] below N the record at position [i] carries the integer
    [BeginTime + StepTime * i] reduced to 64 bits in two's complement: that
    integer itself whenever it is an [int64]. *)
Theorem C1_single_block_timestamps (d mo : string) (data : list Byte.byte)
    (response : getMeasureResponse) (v : measureBody) :
  json_Unmarshal data = Ok response ->
  Body response = [v] ->
  Forall (fun m : row => List.length m = 9%nat) (Value v) ->
  exists measures : slice Measure,
    buildGetMeasureResponse d mo data = Returns (measures, None) /\
    len measures = List.length (Value v) /\
    forall i : nat, (i < List.length (Value v))%nat ->
      exists r : Measure,
        nth_error (elems measures) i = Some r /\
        Timestamp r = wrap64 (BeginTime v + StepTime v * Z.of_nat i) /\
        (in_int64 (BeginTime v + StepTime v * Z.of_nat i) ->
         Timestamp r = BeginTime v + StepTime v * Z.of_nat i).
Proof.
  intros Hj Hb Hrows.
  assert (Hw : wideRows (Body response)).
  { rewrite Hb. constructor; [apply nine_wide, Hrows | constructor]. }
  exists (extend None (expandSeries d mo (Body response))).
  split; [apply build_wide; assumption|].
  rewrite Hb, expandSeries_single. unfold len. rewrite elems_extend. simpl.
  split; [apply recordsFrom_length|].
  intros i Hi.
  destruct (nth_error (Value v) i) as [m|] eqn:Hm.
  - exists (recordOfRow d mo v i m).
    split; [apply (recordsFrom_nth d mo v (Value v) 0 i m Hm)|].
    assert (Ht : Timestamp (recordOfRow d mo v i m) =
                 wrap64 (BeginTime v + StepTime v * Z.of_nat i))
      by apply timestamp_wrap.
    split; [exact Ht|]. intros Hr. rewrite Ht. apply wrap64_id, Hr.
  - apply nth_error_None in Hm. lia.
Qed.

(** C2. A cell whose value is present and equal to 0.0 resolves to absent,
    for the float metrics ([handleFloat]) and for the integer metrics
    ([handleInt]) alike; an absent cell resolves to absent. *)
Theorem C2_zero_resolves_to_absent (x : float64) :
  float64_eqb x float64_zero = true ->
  handleFloat (Some x) = None /\ handleInt (Some x) = None /\
  handleFloat None = None /\ handleInt None = None.
Proof.
  intros Hx. unfold handleFloat, handleInt. rewrite Hx. auto.
Qed.

(** C3, as amended.  A cell with a present value [x] that is not equal to
    0.0 resolves to [x] unchanged for the float metrics; for the integer
    metrics it resolves to [x] truncated toward zero whenever that integer
    lies in the range of [int]. *)
Theorem C3_nonzero_resolved (x : float64) :
  float64_eqb x float64_zero = false ->
  handleFloat (Some x) = Some x /\
  forall z : Z,
    float64_trunc x = Some z -> in_int64 z -> handleInt (Some x) = Some z.
Proof.
  intros Hx. unfold handleFloat, handleInt. rewrite Hx.
  split; [reflexivity|]. intros z Hz [Hlo Hhi].
  unfold int_of_float64, in_int64b. rewrite Hz.
  apply Z.leb_le in Hlo, Hhi. rewrite Hlo, Hhi. reflexivity.
Qed.

(** C4, as amended.  For a response with a row of fewer than nine cells
    (a row of width 7, say) decoding does not return: it stops with the
    run-time panic "index out of range [n] with length n", [n] being the
    width of the first such row in the order of the blocks and of their
    rows; there is no truncated record, no skipped row and no empty result,
    and no error value either.  Rows of nine cells or more are no failure:
    when every row has them, decoding returns with the nil error. *)
Theorem C4_short_row_panics (d mo : string) (data : list Byte.byte)
    (response : getMeasureResponse) :
  json_Unmarshal data = Ok response ->
  (Exists (fun v => Exists (fun m : row => (List.length m < 9)%nat) (Value v))
          (Body response) ->
   exists (pre : list row) (m : row) (post : list row),
     flat_map Value (Body response) = (pre ++ m :: post)%list /\
     Forall (fun m' : row => (9 <= List.length m')%nat) pre /\
     (List.length m < 9)%nat /\
     buildGetMeasureResponse d mo data =
     Panics (IndexOutOfRange (Z.of_nat (List.length m)) (List.length m))) /\
  (wideRows (Body response) ->
   exists measures : slice Measure,
     buildGetMeasureResponse d mo data = Returns (measures, None)).
Proof.
  intros Hj. split.
  - intros Hex. apply exists_short_row in Hex as (m & Hm & Hlt).
    destruct (firstShortRow_split _ m Hm) as (pre & post & Hsplit & Hpre & _).
    exists pre, m, post.
    split; [exact Hsplit|]. split; [exact Hpre|]. split; [exact Hlt|].
    apply (build_short d mo data response m Hj Hm).
  - intros Hw. eexists. apply (build_wide d mo data response Hj Hw).
Qed.

(** C5. A response without blocks, or whose blocks have no rows, decodes to
    the no-data result: the nil slice with the nil error.  A payload that
    fails to decode gives the nil slice with an error, which is a
    different result. *)
Theorem C5_no_data_is_not_an_error (d mo : string) (data : list Byte.byte)
    (response : getMeasureResponse) :
  json_Unmarshal data = Ok response ->
  Forall (fun v => Value v = []) (Body response) ->
  buildGetMeasureResponse d mo data = Returns (None, None) /\
  forall (data' : list Byte.byte) (err : string),
    json_Unmarshal data' = Fail err ->
    buildGetMeasureResponse d mo data' = Returns (None, Some err) /\
    buildGetMeasureResponse d mo data' <> buildGetMeasureResponse d mo data.
Proof.
  intros Hj Hrows.
  assert (Hnd : buildGetMeasureResponse d mo data = Returns (None, None)).
  { rewrite (build_wide d mo data response Hj (no_rows_wide _ Hrows)).
    rewrite (expandSeries_no_rows d mo _ Hrows). reflexivity. }
  split; [exact Hnd|]. intros data' err Hf.
  assert (Herr : buildGetMeasureResponse d mo data' = Returns (None, Some err)).
  { unfold buildGetMeasureResponse. rewrite Hf. reflexivity. }
  split; [exact Herr|]. rewrite Herr, Hnd. discriminate.
Qed.

(** C6. When the decoded sequence is not empty, [GetMeasureByNewest]
    returns the record at its last position, whatever the timestamps are;
    when it is empty, it returns the no-data outcome, a nil record with a
    nil error. *)
Theorem C6_newest_is_last_position (d mo : string) (resp : Response)
    (data : list Byte.byte) (measures : slice Measure) :
  client_Get (measureByNewestURL d mo) = Ok resp ->
  ioutil_ReadAll resp = Ok data ->
  buildGetMeasureResponse d mo data = Returns (measures, None) ->
  (len measures = 0%nat -> GetMeasureByNewest d mo = Returns (None, None)) /\
  ((0 < len measures)%nat ->
   exists r : Measure,
     nth_error (elems measures) (len measures - 1) = Some r /\
     GetMeasureByNewest d mo = Returns (Some r, None)).
Proof.
  intros Hg Hr Hb. unfold GetMeasureByNewest. rewrite Hg, Hr, Hb. simpl bind.
  destruct (build_nil_or_nonempty _ _ _ _ _ Hb) as [-> | [Hlen _]].
  - split; [reflexivity|]. unfold len. simpl. lia.
  - split; [lia|]. intros Hpos.
    destruct measures as [l|]; [|unfold len in Hlen; simpl in Hlen; lia].
    simpl is_nil. cbv iota.
    destruct (last_position l Hpos) as (a & Hn & Hi).
    exists a. split; [exact Hn|].
    unfold len. simpl elems. rewrite Hi. reflexivity.
Qed.

(** C7. The records of a response are those of its blocks in the order of
    the blocks, and within a block those of its rows in the order of the
    rows: nothing is sorted and nothing is dropped. *)
Theorem C7_output_order_is_input_order (d mo : string)
    (data : list Byte.byte) (response : getMeasureResponse) :
  json_Unmarshal data = Ok response ->
  wideRows (Body response) ->
  exists measures : slice Measure,
    buildGetMeasureResponse d mo data = Returns (measures, None) /\
    elems measures = expandSeries d mo (Body response).
Proof.
  intros Hj Hw. exists (extend None (expandSeries d mo (Body response))).
  split; [apply build_wide; assumption|].
  rewrite elems_extend. reflexivity.
Qed.

(** C8. Every record that decoding produces carries the device identifier
    and the module identifier of the call, unchanged. *)
Theorem C8_identifiers_carried (d mo : string) (data : list Byte.byte)
    (measures : slice Measure) (err : error) :
  buildGetMeasureResponse d mo data = Returns (measures, err) ->
  Forall (fun r => DeviceID r = d /\ ModuleID r = mo) (elems measures).
Proof.
  intros H.
  destruct (build_cases d mo data)
    as [(e & _ & Hb) | [(r & m & _ & _ & Hb) | (r & _ & _ & Hb)]];
    rewrite Hb in H; try discriminate; injection H as <- <-.
  - constructor.
  - rewrite elems_extend. simpl. apply Forall_forall. intros x Hx.
    unfold expandSeries in Hx. apply in_flat_map in Hx as (v & _ & Hx).
    unfold expandBlock, recordsFrom in Hx.
    apply in_map_iff in Hx as (im & <- & _). split; reflexivity.
Qed.

(** C9. When [buildGetMeasureResponse] returns without error its slice is
    nil or has at least one element, never empty and not nil; hence the
    element at index [len(measures)-1] that [GetMeasureByNewest] takes
    after its nil check exists. *)
Theorem C9_nil_or_nonempty (d mo : string) (data : list Byte.byte)
    (measures : slice Measure) :
  buildGetMeasureResponse d mo data = Returns (measures, None) ->
  (measures = None \/ (1 <= len measures)%nat) /\
  (is_nil measures = false ->
   exists r : Measure,
     index (elems measures) (Z.of_nat (len measures) - 1) = Returns r).
Proof.
  intros H.
  destruct (build_nil_or_nonempty _ _ _ _ _ H) as [-> | [Hlen _]].
  - split; [left; reflexivity | discriminate].
  - split; [right; exact Hlen|]. intros _.
    destruct (last_position (elems measures)) as (a & _ & Hi);
      [exact Hlen|].
    exists a. exact Hi.
Qed.

(** C10. Rows of more than nine cells decode without error, and the cells
    past index 8 play no part: the result is that of the response whose
    rows are cut down to their first nine cells. *)
Theorem C10_cells_past_index_8_ignored (d mo : string)
    (data data' : list Byte.byte) (response : getMeasureResponse) :
  json_Unmarshal data = Ok response ->
  json_Unmarshal data' = Ok (firstNineOf response) ->
  wideRows (Body response) ->
  (exists measures : slice Measure,
     buildGetMeasureResponse d mo data = Returns (measures, None)) /\
  buildGetMeasureResponse d mo data = buildGetMeasureResponse d mo data'.
Proof.
  intros Hj Hj' Hw.
  rewrite (build_wide d mo data response Hj Hw).
  rewrite (build_wide d mo data' _ Hj' (wideRows_firstNine _ Hw)).
  simpl Body. rewrite expandSeries_firstNine.
  split; [eexists; reflexivity | reflexivity].
Qed.

(** ** Further properties of the decoder and of the two reads *)

Lemma recordsFrom_nth_inv (d mo : string) (v : measureBody) (rows : list row)
    (i k : nat) (r : Measure) :
  nth_error (recordsFrom d mo v i rows) k = Some r ->
  exists m : row, nth_error rows k = Some m /\ r = recordOfRow d mo v (i + k) m.
Proof.
  intros H.
  destruct (nth_error rows k) as [m|] eqn:Hm.
  - exists m. split; [reflexivity|].
    rewrite (recordsFrom_nth d mo v rows i k m Hm) in H. congruence.
  - apply nth_error_None in Hm.
    rewrite <- (recordsFrom_length d mo v i rows) in Hm.
    apply nth_error_None in Hm. congruence.
Qed.

Lemma build_returns (d mo : string) (data : list Byte.byte)
    (response : getMeasureResponse) (measures : slice Measure) (err : error) :
  json_Unmarshal data = Ok response ->
  buildGetMeasureResponse d mo data = Returns (measures, err) ->
  wideRows (Body response) /\ err = None /\
  measures = extend None (expandSeries d mo (Body response)).
Proof.
  intros Hj H.
  destruct (build_cases d mo data)
    as [(e & Hj' & _) | [(r & m & _ & _ & Hb) | (r & Hj' & Hw & Hb)]];
    try congruence.
  rewrite Hj in Hj'. injection Hj' as <-.
  rewrite Hb in H. injection H as <- <-. auto.
Qed.

Lemma single_block_record (d mo : string) (data : list Byte.byte)
    (response : getMeasureResponse) (v : measureBody)
    (measures : slice Measure) (err : error) (i : nat) (r : Measure) :
  json_Unmarshal data = Ok response ->
  Body response = [v] ->
  buildGetMeasureResponse d mo data = Returns (measures, err) ->
  nth_error (elems measures) i = Some r ->
  (i < List.length (Value v))%nat /\
  Timestamp r = wrap64 (BeginTime v + StepTime v * Z.of_nat i).
Proof.
  intros Hj Hb H Hn.
  destruct (build_returns d mo data response measures err Hj H) as (_ & _ & ->).
  rewrite Hb, expandSeries_single, elems_extend in Hn. simpl in Hn.
  split.
  - rewrite <- (recordsFrom_length d mo v 0 (Value v)).
    apply nth_error_Some. congruence.
  - apply recordsFrom_nth_inv in Hn as (m & _ & ->). simpl.
    apply timestamp_wrap.
Qed.

(** X1. In a response of one block, the record at position [i] carries the
    exact integer [BeginTime + StepTime * i] whenever that integer is an
    [int64]; in general it carries that integer reduced to 64 bits. *)
Theorem timestamp_exact_without_overflow (d mo : string)
    (data : list Byte.byte) (response : getMeasureResponse) (v : measureBody)
    (measures : slice Measure) (err : error) (i : nat) (r : Measure) :
  json_Unmarshal data = Ok response ->
  Body response = [v] ->
  buildGetMeasureResponse d mo data = Returns (measures, err) ->
  nth_error (elems measures) i = Some r ->
  Timestamp r = wrap64 (BeginTime v + StepTime v * Z.of_nat i) /\
  (in_int64 (BeginTime v + StepTime v * Z.of_nat i) ->
   Timestamp r = BeginTime v + StepTime v * Z.of_nat i).
Proof.
  intros Hj Hb H Hn.
  destruct (single_block_record d mo data response v measures err i r Hj Hb H Hn)
    as [_ Ht].
  split; [exact Ht|]. intros Hr. rewrite Ht. apply wrap64_id, Hr.
Qed.

(** X2. Once the payload has been decoded, [buildGetMeasureResponse] panics
    exactly when some row has fewer than nine cells; otherwise it returns
    with the nil error. *)
Theorem decoder_panics_iff_short_row (d mo : string) (data : list Byte.byte)
    (response : getMeasureResponse) :
  json_Unmarshal data = Ok response ->
  ((exists p : panic, buildGetMeasureResponse d mo data = Panics p) <->
   Exists (fun v => Exists (fun m : row => (List.length m < 9)%nat) (Value v))
          (Body response)) /\
  ((exists measures : slice Measure,
      buildGetMeasureResponse d mo data = Returns (measures, None)) <->
   wideRows (Body response)).
Proof.
  intros Hj. split; split.
  - intros [p Hp].
    destruct (firstShortRowOf (Body response)) as [m|] eqn:Hs.
    + apply firstShortRow_some in Hs as [Hlt Hin].
      apply in_flat_map in Hin as (v & Hv & Hm).
      apply Exists_exists. exists v. split; [exact Hv|].
      apply Exists_exists. exists m. auto.
    + apply firstShortRowOf_none in Hs.
      rewrite (build_wide d mo data response Hj Hs) in Hp. discriminate.
  - intros Hex. apply exists_short_row in Hex as (m & Hm & _).
    eexists. apply (build_short d mo data response m Hj Hm).
  - intros [measures H].
    apply (build_returns d mo data response measures None Hj H).
  - intros Hw. eexists. apply (build_wide d mo data response Hj Hw).
Qed.

(** X3. The number of records returned is the number of rows of the
    response, all blocks together: no row is dropped and none is doubled. *)
Theorem record_count_is_row_count (d mo : string) (data : list Byte.byte)
    (response : getMeasureResponse) (measures : slice Measure) (err : error) :
  json_Unmarshal data = Ok response ->
  buildGetMeasureResponse d mo data = Returns (measures, err) ->
  len measures = List.length (flat_map Value (Body response)).
Proof.
  intros Hj H.
  destruct (build_returns d mo data response measures err Hj H) as (_ & _ & ->).
  unfold len. rewrite elems_extend. simpl. clear H Hj.
  unfold expandSeries. induction (Body response) as [|v rest IH];
    [reflexivity|].
  simpl. rewrite !length_app, IH.
  unfold expandBlock. rewrite recordsFrom_length. reflexivity.
Qed.

(** X4. In a response of one block with a positive step whose first and
    last timestamps are [int64] numbers, the timestamps of the records
    increase strictly with the position. *)
Theorem timestamps_increase_within_block (d mo : string)
    (data : list Byte.byte) (response : getMeasureResponse) (v : measureBody)
    (measures : slice Measure) (err : error) (i j : nat) (ri rj : Measure) :
  json_Unmarshal data = Ok response ->
  Body response = [v] ->
  0 < StepTime v ->
  in_int64 (BeginTime v) ->
  in_int64 (BeginTime v + StepTime v * (Z.of_nat (List.length (Value v)) - 1)) ->
  buildGetMeasureResponse d mo data = Returns (measures, err) ->
  nth_error (elems measures) i = Some ri ->
  nth_error (elems measures) j = Some rj ->
  (i < j)%nat ->
  Timestamp ri < Timestamp rj.
Proof.
  intros Hj Hb Hstep [Hlo _] [_ Hhi] H Hi Hjn Hij.
  destruct (single_block_record d mo data response v measures err i ri Hj Hb H Hi)
    as [Hil Hti].
  destruct (single_block_record d mo data response v measures err j rj Hj Hb H Hjn)
    as [Hjl Htj].
  assert (Hbound : forall k : nat, (k < List.length (Value v))%nat ->
            in_int64 (BeginTime v + StepTime v * Z.of_nat k)).
  { intros k Hk. unfold in_int64 in *. split; nia. }
  rewrite Hti, Htj, !wrap64_id by auto. nia.
Qed.

(** X6. The two resolvers drop the same cells, namely the null cell and the
    cells equal to 0.0 and no other; and a float metric that is present is
    never equal to 0.0. *)
Theorem resolvers_drop_the_same_cells (c : option float64) :
  (handleFloat c = None <->
   c = None \/ exists x : float64, c = Some x /\ float64_eqb x float64_zero = true) /\
  (handleInt c = None <-> handleFloat c = None) /\
  (forall y : float64,
     handleFloat c = Some y -> c = Some y /\ float64_eqb y float64_zero = false).
Proof.
  unfold handleFloat, handleInt. destruct c as [x|].
  - destruct (float64_eqb x float64_zero) eqn:Hx.
    + split; [|split].
      * split; [intros _; right; exists x; auto | reflexivity].
      * tauto.
      * discriminate.
    + split; [|split].
      * split; [discriminate|].
        intros [H | (x' & H & Hx')]; [discriminate|].
        injection H as <-. congruence.
      * split; discriminate.
      * intros y H. injection H as <-. auto.
  - split; [|split].
    + split; [auto | reflexivity].
    + tauto.
    + discriminate.
Qed.

(** X7. Whatever [GetMeasureByTimeRange] returns, it never returns records
    together with an error, and never an empty slice that is not nil: the
    result is the nil slice (with or without an error) or at least one record
    with the nil error. *)
Theorem time_range_result_shape (d mo : string) (begin_ end_ : Z)
    (measures : slice Measure) (err : error) :
  GetMeasureByTimeRange d mo begin_ end_ = Returns (measures, err) ->
  measures = None \/ ((1 <= len measures)%nat /\ err = None).
Proof.
  unfold GetMeasureByTimeRange.
  destruct (client_Get _) as [resp|e]; [|intros H; injection H as <- _; auto].
  destruct (ioutil_ReadAll resp) as [data|e];
    [|intros H; injection H as <- _; auto].
  apply build_nil_or_nonempty.
Qed.

(** X8. [GetMeasureByNewest] panics only when the decoder does, on the
    payload that was fetched: its own index expression never does. *)
Theorem newest_panics_only_in_decoder (d mo : string) (p : panic) :
  GetMeasureByNewest d mo = Panics p ->
  exists (resp : Response) (data : list Byte.byte),
    client_Get (measureByNewestURL d mo) = Ok resp /\
    ioutil_ReadAll resp = Ok data /\
    buildGetMeasureResponse d mo data = Panics p.
Proof.
  unfold GetMeasureByNewest.
  destruct (client_Get _) as [resp|e]; [|discriminate].
  destruct (ioutil_ReadAll resp) as [data|e] eqn:Hr; [|discriminate].
  intros H. exists resp, data. split; [reflexivity|]. split; [exact Hr|].
  destruct (buildGetMeasureResponse d mo data) as [[measures err]|q] eqn:Hb;
    [|simpl in H; injection H as <-; reflexivity].
  exfalso. simpl in H.
  destruct err as [e|]; [discriminate|].
  destruct (build_nil_or_nonempty _ _ _ _ _ Hb) as [-> | [Hlen _]];
    [discriminate|].
  destruct measures as [l|]; [|unfold len in Hlen; simpl in Hlen; lia].
  destruct (last_position l Hlen) as (a & _ & Hi).
  unfold len in H. simpl in H. rewrite Hi in H. discriminate.
Qed.

Lemma recordsFrom_app (d mo : string) (v : measureBody) (r1 r2 : list row) :
  forall i : nat,
    recordsFrom d mo v i (r1 ++ r2) =
    (recordsFrom d mo v i r1 ++ recordsFrom d mo v (i + List.length r1) r2)%list.
Proof.
  induction r1 as [|m r1 IH]; intros i.
  - simpl. rewrite Nat.add_0_r. reflexivity.
  - change ((m :: r1) ++ r2)%list with (m :: (r1 ++ r2))%list.
    rewrite !recordsFrom_cons, IH. simpl. do 3 f_equal. lia.
Qed.

Lemma index_last_elem {A : Type} (l : list A) (a : A) :
  index (l ++ [a]) (Z.of_nat (List.length (l ++ [a])) - 1) = Returns a.
Proof.
  rewrite length_app. simpl.
  replace (Z.of_nat (List.length l + 1) - 1) with (Z.of_nat (List.length l))
    by lia.
  apply index_in_bounds. rewrite nth_error_app2, Nat.sub_diag by lia.
  reflexivity.
Qed.

(** X9. With a last block that has rows, the newest read is the record of
    the last row of the last block, whatever the begin times of the blocks
    before it. *)
Theorem newest_is_last_row_of_last_block (d mo : string) (resp : Response)
    (data : list Byte.byte) (response : getMeasureResponse)
    (init : list measureBody) (v : measureBody) (rows : list row) (m : row) :
  client_Get (measureByNewestURL d mo) = Ok resp ->
  ioutil_ReadAll resp = Ok data ->
  json_Unmarshal data = Ok response ->
  Body response = (init ++ [v])%list ->
  Value v = (rows ++ [m])%list ->
  wideRows (Body response) ->
  exists r : Measure,
    GetMeasureByNewest d mo = Returns (Some r, None) /\
    r = recordOfRow d mo v (List.length rows) m /\
    Timestamp r = wrap64 (BeginTime v + StepTime v * Z.of_nat (List.length rows)).
Proof.
  intros Hg Hr Hj Hb Hv Hw.
  exists (recordOfRow d mo v (List.length rows) m).
  split; [|split; [reflexivity | apply timestamp_wrap]].
  unfold GetMeasureByNewest. rewrite Hg, Hr.
  rewrite (build_wide d mo data response Hj Hw). simpl bind.
  assert (He : expandSeries d mo (Body response) =
               ((expandSeries d mo init ++ recordsFrom d mo v 0 rows) ++
                [recordOfRow d mo v (List.length rows) m])%list).
  { rewrite Hb. unfold expandSeries. rewrite flat_map_app. simpl.
    unfold expandBlock. rewrite Hv, recordsFrom_app, app_nil_r, app_assoc.
    reflexivity. }
  rewrite He.
  set (l := (expandSeries d mo init ++ recordsFrom d mo v 0 rows)%list).
  assert (Hx : extend None (l ++ [recordOfRow d mo v (List.length rows) m]) =
               Some (l ++ [recordOfRow d mo v (List.length rows) m])%list).
  { destruct l; reflexivity. }
  rewrite Hx. simpl is_nil. cbv iota. unfold len. simpl elems.
  rewrite index_last_elem. reflexivity.
Qed.

(** X10. The loop over the blocks composes: the blocks [b1] followed by
    [b2] are decoded as [b1], and then [b2] from the records collected so
    far; a panic in [b1] ends the whole. *)
Theorem rangeBody_app (d mo : string) (b1 b2 : list measureBody) :
  forall measures : slice Measure,
    rangeBody d mo (b1 ++ b2) measures =
    (s <- rangeBody d mo b1 measures ;; rangeBody d mo b2 s).
Proof.
  induction b1 as [|v b1 IH]; intros measures; [reflexivity|].
  simpl. destruct (rangeValue d mo v 0 (Value v) measures) as [s|p]; simpl.
  - apply IH.
  - reflexivity.
Qed.

End Client.

(** ** The claims at sample inputs *)

Lemma C1_witness :
  decodes_to sample_response [] = Ok sample_response /\
  Body sample_response = [sample_block] /\
  Forall (fun m : row => List.length m = 9%nat) (Value sample_block) /\
  exists measures : slice Measure,
    buildGetMeasureResponse amd64_unrepresentable (decodes_to sample_response)
      sample_device sample_module [] = Returns (measures, None) /\
    len measures = 2%nat /\
    forall i : nat, (i < 2)%nat ->
      exists r : Measure,
        nth_error (elems measures) i = Some r /\
        Timestamp r = wrap64 (1000 + 60 * Z.of_nat i) /\
        (in_int64 (1000 + 60 * Z.of_nat i) ->
         Timestamp r = 1000 + 60 * Z.of_nat i).
Proof.
  assert (H : Forall (fun m : row => List.length m = 9%nat) (Value sample_block))
    by (repeat constructor).
  split; [reflexivity|]. split; [reflexivity|]. split; [exact H|].
  exact (C1_single_block_timestamps amd64_unrepresentable
           (decodes_to sample_response) sample_device sample_module []
           sample_response sample_block eq_refl eq_refl H).
Defined.

(** A block of two nine-cell rows that begins at the largest [int64] with a
    step of 1: the record at position 1 carries the least [int64], not the
    integer [BeginTime + StepTime * 1]. *)
Lemma C1_counterexample :
  Body overflow_response = [overflow_block] /\
  Forall (fun m : row => List.length m = 9%nat) (Value overflow_block) /\
  buildGetMeasureResponse amd64_unrepresentable (decodes_to overflow_response)
    sample_device sample_module sample_payload =
  Returns
    (Some [ {| DeviceID := sample_device; ModuleID := sample_module;
               Timestamp := 9223372036854775807;
               Temperature := num 20 0; CO2 := None; Humidity := None;
               Pressure := None; Noise := None; WindStrength := None;
               WindAngle := None; GustStrength := None; GustAngle := None |};
            {| DeviceID := sample_device; ModuleID := sample_module;
               Timestamp := - 9223372036854775808;
               Temperature := num 21 0; CO2 := None; Humidity := None;
               Pressure := None; Noise := None; WindStrength := None;
               WindAngle := None; GustStrength := None; GustAngle := None |} ],
     None) /\
  - 9223372036854775808 <>
  BeginTime overflow_block + StepTime overflow_block * 1.
Proof.
  split; [reflexivity|]. split; [repeat constructor|].
  split; [vm_compute; reflexivity|]. simpl. lia.
Defined.

Lemma C2_witness :
  float64_eqb (S754_zero true) float64_zero = true /\
  handleFloat (Some (S754_zero true)) = None /\
  handleInt amd64_unrepresentable (Some (S754_zero true)) = None /\
  handleFloat None = None /\
  handleInt amd64_unrepresentable None = None.
Proof.
  split; [reflexivity|].
  exact (C2_zero_resolves_to_absent amd64_unrepresentable (S754_zero true) eq_refl).
Defined.

Lemma C3_witness :
  float64_eqb (f64 (-5) (-1)) float64_zero = false /\
  float64_trunc (f64 (-5) (-1)) = Some (-2) /\
  in_int64 (-2) /\
  handleFloat (Some (f64 (-5) (-1))) = Some (f64 (-5) (-1)) /\
  handleInt amd64_unrepresentable (Some (f64 (-5) (-1))) = Some (-2).
Proof.
  assert (Hr : in_int64 (-2)) by (unfold in_int64, int64_min, int64_max; lia).
  destruct (C3_nonzero_resolved amd64_unrepresentable (f64 (-5) (-1)) eq_refl)
    as [Hf Hi].
  split; [reflexivity|]. split; [reflexivity|]. split; [exact Hr|].
  split; [exact Hf|].
  exact (Hi (-2) eq_refl Hr).
Defined.

(** The number 2^63 is not zero and is its own integer part, which [int]
    cannot hold: [handleInt] resolves it to the least [int], not to 2^63. *)
Lemma C3_counterexample :
  float64_finite two_pow_63 = true /\
  float64_eqb two_pow_63 float64_zero = false /\
  float64_trunc two_pow_63 = Some (2 ^ 63) /\
  handleInt amd64_unrepresentable (Some two_pow_63) = Some (- 2 ^ 63) /\
  handleInt amd64_unrepresentable (Some two_pow_63) <> Some (2 ^ 63).
Proof.
  split; [reflexivity|]. split; [reflexivity|]. split; [reflexivity|].
  split; [reflexivity|]. vm_compute. discriminate.
Defined.

Lemma C4_witness :
  decodes_to short_response [] = Ok short_response /\
  Exists (fun v => Exists (fun m : row => (List.length m < 9)%nat) (Value v))
         (Body short_response) /\
  (exists (pre : list row) (m : row) (post : list row),
     flat_map Value (Body short_response) = (pre ++ m :: post)%list /\
     Forall (fun m' : row => (9 <= List.length m')%nat) pre /\
     (List.length m < 9)%nat /\
     buildGetMeasureResponse amd64_unrepresentable (decodes_to short_response)
       sample_device sample_module [] =
     Panics (IndexOutOfRange (Z.of_nat (List.length m)) (List.length m))) /\
  decodes_to wide_response [] = Ok wide_response /\
  wideRows (Body wide_response) /\
  exists measures : slice Measure,
    buildGetMeasureResponse amd64_unrepresentable (decodes_to wide_response)
      sample_device sample_module [] = Returns (measures, None).
Proof.
  assert (H : Exists (fun v => Exists (fun m : row => (List.length m < 9)%nat)
                                      (Value v)) (Body short_response)).
  { apply Exists_cons_hd. apply Exists_cons_hd. simpl. lia. }
  assert (Hw : wideRows (Body wide_response)) by (repeat constructor).
  split; [reflexivity|]. split; [exact H|].
  split;
    [exact (proj1 (C4_short_row_panics amd64_unrepresentable
                     (decodes_to short_response) sample_device sample_module
                     [] short_response eq_refl) H)|].
  split; [reflexivity|]. split; [exact Hw|].
  exact (proj2 (C4_short_row_panics amd64_unrepresentable
                  (decodes_to wide_response) sample_device sample_module
                  [] wide_response eq_refl) Hw).
Defined.

(** A response with a row of ten cells: its length is not nine, and decoding
    returns one record and the nil error. *)
Lemma C4_counterexample :
  Exists (fun v => Exists (fun m : row => List.length m <> 9%nat) (Value v))
         (Body wide_response) /\
  buildGetMeasureResponse amd64_unrepresentable (decodes_to wide_response)
    sample_device sample_module [] =
  Returns (Some [ {| DeviceID := sample_device; ModuleID := sample_module;
                     Timestamp := 1000;
                     Temperature := num 43 (-1); CO2 := Some 400;
                     Humidity := Some 55; Pressure := num 1013 0;
                     Noise := Some 30; WindStrength := Some 7;
                     WindAngle := Some 90; GustStrength := Some 12;
                     GustAngle := Some 95 |} ], None) /\
  ~ decodingFailure
      (buildGetMeasureResponse amd64_unrepresentable (decodes_to wide_response)
         sample_device sample_module []).
Proof.
  split; [|split].
  - apply Exists_cons_hd. apply Exists_cons_hd. simpl. discriminate.
  - vm_compute. reflexivity.
  - intros [err H]. vm_compute in H. discriminate.
Defined.

Lemma C5_witness :
  decodes_nonempty empty_response sample_payload = Ok empty_response /\
  Forall (fun v => Value v = []) (Body empty_response) /\
  buildGetMeasureResponse amd64_unrepresentable (decodes_nonempty empty_response)
    sample_device sample_module sample_payload = Returns (None, None) /\
  buildGetMeasureResponse amd64_unrepresentable (decodes_nonempty empty_response)
    sample_device sample_module [] =
  Returns (None, Some "unexpected end of JSON input"%string).
Proof.
  assert (H : Forall (fun v => Value v = []) (Body empty_response))
    by (repeat constructor).
  destruct (C5_no_data_is_not_an_error amd64_unrepresentable
              (decodes_nonempty empty_response) sample_device sample_module
              sample_payload empty_response eq_refl H) as [Hnd Herr].
  split; [reflexivity|]. split; [exact H|]. split; [exact Hnd|].
  exact (proj1 (Herr [] _ eq_refl)).
Defined.

(** The second block of [unordered_response] is the older one: the newest
    read returns its record, the one at the last position. *)
Lemma C6_witness :
  exists (measures : slice Measure) (r : Measure),
    answers sample_payload (measureByNewestURL sample_device sample_module) =
    Ok sample_payload /\
    read_all sample_payload = Ok sample_payload /\
    buildGetMeasureResponse amd64_unrepresentable (decodes_to unordered_response)
      sample_device sample_module sample_payload = Returns (measures, None) /\
    len measures = 2%nat /\
    nth_error (elems measures) 1 = Some r /\
    GetMeasureByNewest amd64_unrepresentable (decodes_to unordered_response)
      (list Byte.byte) (answers sample_payload) read_all
      sample_device sample_module = Returns (Some r, None) /\
    Timestamp r = 1000.
Proof.
  pose (measures :=
          extend None (expandSeries amd64_unrepresentable sample_device
                         sample_module (Body unordered_response))).
  assert (Hb : buildGetMeasureResponse amd64_unrepresentable
                 (decodes_to unordered_response) sample_device sample_module
                 sample_payload = Returns (measures, None)) by reflexivity.
  destruct (C6_newest_is_last_position amd64_unrepresentable
              (decodes_to unordered_response) (list Byte.byte)
              (answers sample_payload) read_all sample_device sample_module
              sample_payload sample_payload measures eq_refl eq_refl Hb)
    as [_ Hlast].
  assert (Hpos : (0 < len measures)%nat) by (unfold len; simpl; lia).
  destruct (Hlast Hpos) as (r & Hn & Hg).
  exists measures, r.
  split; [reflexivity|]. split; [reflexivity|]. split; [exact Hb|].
  split; [reflexivity|]. split; [exact Hn|]. split; [exact Hg|].
  change (nth_error (elems measures) 1 = Some r) in Hn.
  simpl in Hn. injection Hn as <-. reflexivity.
Defined.

Lemma C7_witness :
  decodes_to sample_response sample_payload = Ok sample_response /\
  wideRows (Body sample_response) /\
  exists measures : slice Measure,
    buildGetMeasureResponse amd64_unrepresentable (decodes_to sample_response)
      sample_device sample_module sample_payload = Returns (measures, None) /\
    elems measures =
    expandSeries amd64_unrepresentable sample_device sample_module
      (Body sample_response).
Proof.
  assert (H : wideRows (Body sample_response)).
  { repeat constructor. }
  split; [reflexivity|]. split; [exact H|].
  exact (C7_output_order_is_input_order amd64_unrepresentable
           (decodes_to sample_response) sample_device sample_module
           sample_payload sample_response eq_refl H).
Defined.

Lemma C8_witness :
  exists measures : slice Measure,
    buildGetMeasureResponse amd64_unrepresentable (decodes_to sample_response)
      sample_device sample_module sample_payload = Returns (measures, None) /\
    len measures = 2%nat /\
    Forall (fun r => DeviceID r = sample_device /\ ModuleID r = sample_module)
           (elems measures).
Proof.
  eexists. split; [reflexivity|]. split; [reflexivity|].
  exact (C8_identifiers_carried amd64_unrepresentable
           (decodes_to sample_response) sample_device sample_module
           sample_payload _ None eq_refl).
Defined.

Lemma C9_witness :
  exists measures : slice Measure,
    buildGetMeasureResponse amd64_unrepresentable (decodes_to sample_response)
      sample_device sample_module sample_payload = Returns (measures, None) /\
    is_nil measures = false /\
    (measures = None \/ (1 <= len measures)%nat) /\
    exists r : Measure,
      index (elems measures) (Z.of_nat (len measures) - 1) = Returns r.
Proof.
  eexists. split; [reflexivity|]. split; [reflexivity|].
  destruct (C9_nil_or_nonempty amd64_unrepresentable
              (decodes_to sample_response) sample_device sample_module
              sample_payload _ eq_refl) as [Hshape Hlast].
  split; [exact Hshape | exact (Hlast eq_refl)].
Defined.

Lemma C10_witness :
  decodes_two wide_response (firstNineOf wide_response) [] = Ok wide_response /\
  decodes_two wide_response (firstNineOf wide_response) sample_payload =
  Ok (firstNineOf wide_response) /\
  wideRows (Body wide_response) /\
  (exists measures : slice Measure,
     buildGetMeasureResponse amd64_unrepresentable
       (decodes_two wide_response (firstNineOf wide_response))
       sample_device sample_module [] = Returns (measures, None)) /\
  buildGetMeasureResponse amd64_unrepresentable
    (decodes_two wide_response (firstNineOf wide_response))
    sample_device sample_module [] =
  buildGetMeasureResponse amd64_unrepresentable
    (decodes_two wide_response (firstNineOf wide_response))
    sample_device sample_module sample_payload.
Proof.
  assert (H : wideRows (Body wide_response)).
  { repeat constructor. }
  split; [reflexivity|]. split; [reflexivity|]. split; [exact H|].
  exact (C10_cells_past_index_8_ignored amd64_unrepresentable
           (decodes_two wide_response (firstNineOf wide_response))
           sample_device sample_module [] sample_payload wide_response
           eq_refl eq_refl H).
Defined.

(** ** The helpers that print and compare *)

Lemma to_int_not_nil (n : Z) :
  Z.to_int n <> Decimal.Pos Decimal.Nil /\ Z.to_int n <> Decimal.Neg Decimal.Nil.
Proof.
  destruct n as [|p|p]; simpl; split; try discriminate;
    intros H; injection H as H; exact (Unsigned.to_uint_nonnil p H).
Qed.

Lemma FormatInt10_parse (n : Z) :
  NilZero.int_of_string (FormatInt10 n) = Some (Z.to_int n).
Proof.
  unfold FormatInt10. destruct (to_int_not_nil n) as [Hp Hn].
  apply NilZero.isi; assumption.
Qed.

Lemma FormatInt10_inj (a b : Z) : FormatInt10 a = FormatInt10 b -> a = b.
Proof.
  intros H. apply (f_equal NilZero.int_of_string) in H.
  rewrite !FormatInt10_parse in H. injection H as H.
  apply DecimalZ.to_int_inj, H.
Qed.

Lemma append_inv_head (p s1 s2 : string) :
  (p ++ s1 = p ++ s2)%string -> s1 = s2.
Proof.
  induction p as [|c p IH]; simpl; intros H; [exact H|].
  injection H as H. apply IH, H.
Qed.

(** X11. [sliceContains] answers whether the value occurs in the slice. *)
Theorem sliceContains_iff_In (slice : list string) (value : string) :
  sliceContains slice value = true <-> In value slice.
Proof.
  induction slice as [|item rest IH]; simpl.
  - split; [discriminate | tauto].
  - destruct (String.eqb_spec item value) as [-> | Hne].
    + split; auto.
    + rewrite IH. split; [auto|]. intros [H | H]; [contradiction | exact H].
Qed.

(** X13. [intOrNull] tells its arguments apart: no number prints as
    ["null"], and two numbers that print alike are equal. *)
Theorem intOrNull_injective (v w : option Z) :
  intOrNull v = intOrNull w -> v = w.
Proof.
  assert (Hnull : forall x : Z, FormatInt10 x <> "null"%string).
  { intros x H. apply (f_equal NilZero.int_of_string) in H.
    rewrite FormatInt10_parse in H. discriminate. }
  destruct v as [x|], w as [y|]; simpl; intros H.
  - f_equal. apply FormatInt10_inj, H.
  - elim (Hnull x H).
  - elim (Hnull y (eq_sym H)).
  - reflexivity.
Qed.

Lemma DescribeUnit_cases (a : Administrative) :
  (Unit a = 0 /\ DescribeUnit a = "metric system"%string) \/
  (Unit a = 1 /\ DescribeUnit a = "imperial system"%string) \/
  DescribeUnit a = ("unknown unit: " ++ FormatInt10 (Unit a))%string.
Proof.
  unfold DescribeUnit.
  destruct (Unit a) as [|p|p]; [| do 3 (try destruct p as [p|p|]) |];
    solve [repeat first [reflexivity | left; split; reflexivity | right]].
Qed.

Lemma DescribeWindUnit_cases (a : Administrative) :
  (WindUnit a = 0 /\ DescribeWindUnit a = "kph"%string) \/
  (WindUnit a = 1 /\ DescribeWindUnit a = "mph"%string) \/
  (WindUnit a = 2 /\ DescribeWindUnit a = "ms"%string) \/
  (WindUnit a = 3 /\ DescribeWindUnit a = "beaufort"%string) \/
  (WindUnit a = 4 /\ DescribeWindUnit a = "knot"%string) \/
  DescribeWindUnit a = ("unknown wind unit: " ++ FormatInt10 (WindUnit a))%string.
Proof.
  unfold DescribeWindUnit.
  destruct (WindUnit a) as [|p|p]; [| do 3 (try destruct p as [p|p|]) |];
    solve [repeat first [reflexivity | left; split; reflexivity | right]].
Qed.

Lemma DescribePressureUnit_cases (a : Administrative) :
  (PressureUnit a = 0 /\ DescribePressureUnit a = "mbar"%string) \/
  (PressureUnit a = 1 /\ DescribePressureUnit a = "inHg"%string) \/
  (PressureUnit a = 2 /\ DescribePressureUnit a = "mmHg"%string) \/
  DescribePressureUnit a =
  ("unknown pressure unit: " ++ FormatInt10 (PressureUnit a))%string.
Proof.
  unfold DescribePressureUnit.
  destruct (PressureUnit a) as [|p|p]; [| do 3 (try destruct p as [p|p|]) |];
    solve [repeat first [reflexivity | left; split; reflexivity | right]].
Qed.

Lemma DescribeFeelLikeAlgorithm_cases (a : Administrative) :
  (FeelLikeAlgorithm a = 0 /\ DescribeFeelLikeAlgorithm a = "humidex"%string) \/
  (FeelLikeAlgorithm a = 1 /\ DescribeFeelLikeAlgorithm a = "heat-index"%string) \/
  DescribeFeelLikeAlgorithm a =
  ("unknown feel like algorithm: " ++ FormatInt10 (FeelLikeAlgorithm a))%string.
Proof.
  unfold DescribeFeelLikeAlgorithm.
  destruct (FeelLikeAlgorithm a) as [|p|p]; [| do 3 (try destruct p as [p|p|]) |];
    solve [repeat first [reflexivity | left; split; reflexivity | right]].
Qed.

(** Two descriptions that are equal, each one a name of a known code or the
    text for an unknown code followed by the code in decimal. *)
Ltac same_description H :=
  first [ congruence
        | cbn [String.append] in H; discriminate H
        | apply append_inv_head, FormatInt10_inj in H; exact H ].

(** X12. The description of a unit setting determines its code: two
    settings that are described alike hold the same code, known or not. *)
Theorem descriptions_determine_codes (a b : Administrative) :
  (DescribeUnit a = DescribeUnit b -> Unit a = Unit b) /\
  (DescribeWindUnit a = DescribeWindUnit b -> WindUnit a = WindUnit b) /\
  (DescribePressureUnit a = DescribePressureUnit b ->
   PressureUnit a = PressureUnit b) /\
  (DescribeFeelLikeAlgorithm a = DescribeFeelLikeAlgorithm b ->
   FeelLikeAlgorithm a = FeelLikeAlgorithm b).
Proof.
  split; [|split; [|split]]; intros H.
  - destruct (DescribeUnit_cases a) as [[Ha Ea] | [[Ha Ea] | Ea]];
      destruct (DescribeUnit_cases b) as [[Hb Eb] | [[Hb Eb] | Eb]];
      rewrite Ea, Eb in H; same_description H.
  - destruct (DescribeWindUnit_cases a)
      as [[Ha Ea] | [[Ha Ea] | [[Ha Ea] | [[Ha Ea] | [[Ha Ea] | Ea]]]]];
      destruct (DescribeWindUnit_cases b)
        as [[Hb Eb] | [[Hb Eb] | [[Hb Eb] | [[Hb Eb] | [[Hb Eb] | Eb]]]]];
      rewrite Ea, Eb in H; same_description H.
  - destruct (DescribePressureUnit_cases a)
      as [[Ha Ea] | [[Ha Ea] | [[Ha Ea] | Ea]]];
      destruct (DescribePressureUnit_cases b)
        as [[Hb Eb] | [[Hb Eb] | [[Hb Eb] | Eb]]];
      rewrite Ea, Eb in H; same_description H.
  - destruct (DescribeFeelLikeAlgorithm_cases a) as [[Ha Ea] | [[Ha Ea] | Ea]];
      destruct (DescribeFeelLikeAlgorithm_cases b) as [[Hb Eb] | [[Hb Eb] | Eb]];
      rewrite Ea, Eb in H; same_description H.
Qed.

(** X14. A coordinate other than the zero that [Latitude] and [Longitude]
    fall back to can only come from a location of exactly two numbers, which
    are then the latitude and the longitude in this order. *)
Theorem coordinates_come_from_location (n : Place) :
  (Latitude n <> float64_zero \/ Longitude n <> float64_zero ->
   Location n = [Latitude n; Longitude n]) /\
  (List.length (Location n) <> 2%nat ->
   Latitude n = float64_zero /\ Longitude n = float64_zero).
Proof.
  unfold Latitude, Longitude.
  destruct (Location n) as [|a [|b [|c l]]]; simpl; split;
    try (intros [H | H]; solve [reflexivity | elim H; reflexivity]);
    intros H; solve [split; reflexivity | elim H; reflexivity].
Qed.

(** ** The further properties at sample inputs *)

Lemma coordinates_witness :
  Latitude sample_place <> float64_zero /\
  Location sample_place = [Latitude sample_place; Longitude sample_place].
Proof.
  assert (H : Latitude sample_place <> float64_zero) by discriminate.
  split; [exact H|].
  exact (proj1 (coordinates_come_from_location sample_place) (or_introl H)).
Defined.

Lemma timestamp_exact_witness :
  exists (measures : slice Measure) (r : Measure),
    buildGetMeasureResponse amd64_unrepresentable (decodes_to sample_response)
      sample_device sample_module sample_payload = Returns (measures, None) /\
    nth_error (elems measures) 1 = Some r /\
    in_int64 (1000 + 60 * 1) /\
    Timestamp r = 1060.
Proof.
  eexists. eexists.
  split; [reflexivity|]. split; [reflexivity|].
  assert (Hr : in_int64 (1000 + 60 * 1))
    by (unfold in_int64, int64_min, int64_max; lia).
  split; [exact Hr|].
  exact (proj2 (timestamp_exact_without_overflow amd64_unrepresentable
                  (decodes_to sample_response) sample_device sample_module
                  sample_payload sample_response sample_block _ None 1 _
                  eq_refl eq_refl eq_refl eq_refl) Hr).
Defined.

Lemma decoder_panics_witness :
  decodes_to short_response sample_payload = Ok short_response /\
  exists p : panic,
    buildGetMeasureResponse amd64_unrepresentable (decodes_to short_response)
      sample_device sample_module sample_payload = Panics p.
Proof.
  split; [reflexivity|].
  apply (proj1 (decoder_panics_iff_short_row amd64_unrepresentable
                  (decodes_to short_response) sample_device sample_module
                  sample_payload short_response eq_refl)).
  apply Exists_cons_hd. apply Exists_cons_hd. simpl. lia.
Defined.

Lemma record_count_witness :
  exists measures : slice Measure,
    buildGetMeasureResponse amd64_unrepresentable (decodes_to unordered_response)
      sample_device sample_module sample_payload = Returns (measures, None) /\
    len measures = 2%nat.
Proof.
  pose (measures :=
          extend None (expandSeries amd64_unrepresentable sample_device
                         sample_module (Body unordered_response))).
  exists measures. split; [reflexivity|].
  exact (record_count_is_row_count amd64_unrepresentable
           (decodes_to unordered_response) sample_device sample_module
           sample_payload unordered_response measures None eq_refl eq_refl).
Defined.

Lemma timestamps_increase_witness :
  exists (measures : slice Measure) (r0 r1 : Measure),
    buildGetMeasureResponse amd64_unrepresentable (decodes_to sample_response)
      sample_device sample_module sample_payload = Returns (measures, None) /\
    nth_error (elems measures) 0 = Some r0 /\
    nth_error (elems measures) 1 = Some r1 /\
    Timestamp r0 < Timestamp r1.
Proof.
  pose (measures :=
          extend None (expandSeries amd64_unrepresentable sample_device
                         sample_module (Body sample_response))).
  exists measures. eexists. eexists.
  split; [reflexivity|]. split; [reflexivity|]. split; [reflexivity|].
  eapply (timestamps_increase_within_block amd64_unrepresentable
            (decodes_to sample_response) sample_device sample_module
            sample_payload sample_response sample_block measures None 0 1);
    try reflexivity;
    try (unfold in_int64, int64_min, int64_max; simpl; lia).
Defined.

Lemma resolvers_witness :
  handleFloat (num 43 (-1)) = num 43 (-1) /\
  float64_eqb (f64 43 (-1)) float64_zero = false.
Proof.
  split; [reflexivity|].
  exact (proj2 (proj2 (proj2 (resolvers_drop_the_same_cells
                                 amd64_unrepresentable (num 43 (-1))))
                 (f64 43 (-1)) eq_refl)).
Defined.

Lemma time_range_shape_witness :
  exists measures : slice Measure,
    GetMeasureByTimeRange amd64_unrepresentable (decodes_to sample_response)
      (list Byte.byte) (answers sample_payload) read_all
      sample_device sample_module 1000 1120 = Returns (measures, None) /\
    (measures = None \/ ((1 <= len measures)%nat /\ @None string = None)).
Proof.
  eexists. split; [reflexivity|].
  exact (time_range_result_shape amd64_unrepresentable
           (decodes_to sample_response) (list Byte.byte)
           (answers sample_payload) read_all sample_device sample_module
           1000 1120 _ None eq_refl).
Defined.

Lemma newest_panics_witness :
  GetMeasureByNewest amd64_unrepresentable (decodes_to short_response)
    (list Byte.byte) (answers sample_payload) read_all
    sample_device sample_module = Panics (IndexOutOfRange 7 7) /\
  exists (resp data : list Byte.byte),
    answers sample_payload (measureByNewestURL sample_device sample_module) =
    Ok resp /\
    read_all resp = Ok data /\
    buildGetMeasureResponse amd64_unrepresentable (decodes_to short_response)
      sample_device sample_module data = Panics (IndexOutOfRange 7 7).
Proof.
  split; [reflexivity|].
  exact (newest_panics_only_in_decoder amd64_unrepresentable
           (decodes_to short_response) (list Byte.byte)
           (answers sample_payload) read_all sample_device sample_module
           (IndexOutOfRange 7 7) eq_refl).
Defined.

Lemma newest_last_row_witness :
  wideRows (Body unordered_response) /\
  exists r : Measure,
    GetMeasureByNewest amd64_unrepresentable (decodes_to unordered_response)
      (list Byte.byte) (answers sample_payload) read_all
      sample_device sample_module = Returns (Some r, None) /\
    r = recordOfRow amd64_unrepresentable sample_device sample_module
          early_block 0
          [num 10 0; None; None; None; None; None; None; None; None] /\
    Timestamp r = wrap64 (1000 + 60 * 0).
Proof.
  assert (H : wideRows (Body unordered_response)) by (repeat constructor).
  split; [exact H|].
  exact (newest_is_last_row_of_last_block amd64_unrepresentable
           (decodes_to unordered_response) (list Byte.byte)
           (answers sample_payload) read_all sample_device sample_module
           sample_payload sample_payload unordered_response
           [late_block] early_block []
           [num 10 0; None; None; None; None; None; None; None; None]
           eq_refl eq_refl eq_refl eq_refl eq_refl H).
Defined.

Lemma descriptions_witness :
  DescribeWindUnit (sample_settings 7) = "unknown wind unit: 7"%string /\
  WindUnit (sample_settings 7) = WindUnit (sample_settings 7).
Proof.
  split; [reflexivity|].
  exact (proj1 (proj2 (descriptions_determine_codes
                         (sample_settings 7) (sample_settings 7))) eq_refl).
Defined.

Lemma intOrNull_witness :
  intOrNull (Some (-15)) = "-15"%string /\ Some (-15) = Some (-15).
Proof.
  split; [reflexivity|].
  exact (intOrNull_injective (Some (-15)) (Some (-15)) eq_refl).
Defined.

(** The two-row block of the design's scenario: the literal zeros of the
    second row are dropped and its timestamp is one step later. *)
Example scenario_decodes :
  buildGetMeasureResponse amd64_unrepresentable (decodes_to sample_response)
    sample_device sample_module sample_payload =
  Returns
    (Some [ {| DeviceID := sample_device; ModuleID := sample_module;
               Timestamp := 1000;
               Temperature := num 43 (-1); CO2 := None; Humidity := Some 55;
               Pressure := num 1013 0; Noise := None; WindStrength := None;
               WindAngle := None; GustStrength := None; GustAngle := None |};
            {| DeviceID := sample_device; ModuleID := sample_module;
               Timestamp := 1060;
               Temperature := None; CO2 := Some 400; Humidity := None;
               Pressure := num 2025 (-1); Noise := Some 30; WindStrength := None;
               WindAngle := None; GustStrength := None; GustAngle := None |} ],
     None).
Proof. vm_compute. reflexivity. Qed.
